(** * X trends agent (LangGraph + Ollama): the pipeline of
      [src/langgraph_agents/agent.py] and its properties.

    The agent is a straight line of three graph nodes
    ([analyze_and_get_trends], [research_trends_context],
    [synthesize_report]) driven by a request handler.  Every node formats a
    prompt, calls the language model or the web search, and post-processes
    the text it gets back.  [src/beeai_agents/agent.py] is the same script
    with its console lines and greeting in Spanish.

    Layout of the development:
    - [Py]: the Python built-ins the script relies on ([str.strip],
      [str.split], [str.join], [str.replace], [dict.get], [repr]);
    - the effect language [prog] with its events, and [run], which executes
      a program against an environment that answers the model and search
      calls;
    - the nodes, the graph and the handler, in the order of the script;
    - [BeeAI]: the second script, which differs in its console lines;
    - lemmas on the text functions, then on the runs of the nodes;
    - the properties of the specification, then further properties of the
      parsing, of whole requests and of the two scripts side by side. *)

From Stdlib Require Import List NArith Bool String Ascii Lia.
Import ListNotations.

Local Open Scope N_scope.
Local Open Scope list_scope.

(** ** Python text *)

(** A Python [str] is a sequence of Unicode code points. *)
Definition str : Type := list N.

(** An ASCII literal of the script as a [str]. *)
Definition lit (s : string) : str :=
  List.map N_of_ascii (list_ascii_of_string s).

(** The parts of CPython's Unicode database that the script reaches and that
    are too large to reproduce: [str.lower] (which is not character-wise:
    it depends on the context for the final sigma and may change the length)
    and the printable predicate used by [repr]. *)
Class UnicodeData : Type := {
  lower : str -> str;
  isprintable : N -> bool
}.

Module Py.

(** Code points the script names: newline, double quote, single quote,
    comma, backslash. *)
Definition NL : N := 10.
Definition DQUOTE : N := 34.
Definition QUOTE : N := 39.
Definition COMMA : N := 44.
Definition BACKSLASH : N := 92.

Definition str_eqb (a b : str) : bool :=
  if list_eq_dec N.eq_dec a b then true else false.

(** Truth value of a [str]: non-empty. *)
Definition truthy (s : str) : bool :=
  match s with [] => false | _ :: _ => true end.

(** [str.isspace] on one code point (CPython's [_PyUnicode_IsWhitespace]). *)
Definition isspace (c : N) : bool :=
  ((9 <=? c) && (c <=? 13))
  || ((28 <=? c) && (c <=? 32))
  || (c =? 133) || (c =? 160) || (c =? 5760)
  || ((8192 <=? c) && (c <=? 8202))
  || (c =? 8232) || (c =? 8233) || (c =? 8239) || (c =? 8287)
  || (c =? 12288).

Fixpoint lstrip (s : str) : str :=
  match s with
  | [] => []
  | c :: s' => if isspace c then lstrip s' else s
  end.

Fixpoint rstrip (s : str) : str :=
  match s with
  | [] => []
  | c :: s' =>
      match rstrip s' with
      | [] => if isspace c then [] else [c]
      | r => c :: r
      end
  end.

(** [s.strip()] *)
Definition strip (s : str) : str := rstrip (lstrip s).

(** [s.split(sep)] for a separator of one code point: never the empty list. *)
Fixpoint split (sep : N) (s : str) : list str :=
  match s with
  | [] => [[]]
  | c :: s' =>
      if c =? sep then [] :: split sep s'
      else match split sep s' with
           | p :: ps => (c :: p) :: ps
           | [] => [[c]]
           end
  end.

(** [sep.join(l)] *)
Fixpoint join (sep : str) (l : list str) : str :=
  match l with
  | [] => []
  | x :: rest =>
      match rest with
      | [] => x
      | _ :: _ => x ++ sep ++ join sep rest
      end
  end.

(** [s.replace(old, new)] for [old] of one code point. *)
Definition replace (old : N) (new : str) (s : str) : str :=
  flat_map (fun c => if c =? old then new else [c]) s.

(** A [dict] with [str] keys and values, in insertion order. *)
Definition dict : Type := list (str * str).

(** [d.get(key, default)] *)
Fixpoint get (d : dict) (key : str) (default : str) : str :=
  match d with
  | [] => default
  | (k, v) :: d' => if str_eqb k key then v else get d' key default
  end.

(** *** [repr], as the f-string [{search_results}] prints a list of dicts *)

Definition hexdigit (d : N) : N := if d <? 10 then 48 + d else 87 + d.

Fixpoint hex (width : nat) (n : N) : str :=
  match width with
  | O => []
  | S w => hex w (n / 16) ++ [hexdigit (n mod 16)]
  end.

Section Repr.
Context `{UnicodeData}.

Definition repr_char (quote c : N) : str :=
  if (c =? quote) || (c =? BACKSLASH) then [BACKSLASH; c]
  else if c =? 9 then lit "\t"
  else if c =? 10 then lit "\n"
  else if c =? 13 then lit "\r"
  else if (c <? 32) || (c =? 127) then lit "\x" ++ hex 2 c
  else if c <? 127 then [c]
  else if isprintable c then [c]
  else if c <=? 255 then lit "\x" ++ hex 2 c
  else if c <=? 65535 then lit "\u" ++ hex 4 c
  else lit "\U" ++ hex 8 c.

Definition repr_str (s : str) : str :=
  let quote :=
    if existsb (N.eqb QUOTE) s && negb (existsb (N.eqb DQUOTE) s)
    then DQUOTE else QUOTE in
  [quote] ++ flat_map (repr_char quote) s ++ [quote].

Definition repr_dict (d : dict) : str :=
  lit "{"
  ++ join (lit ", ")
       (List.map (fun kv => repr_str (fst kv) ++ lit ": " ++ repr_str (snd kv)) d)
  ++ lit "}".

Definition repr_list (l : list dict) : str :=
  lit "[" ++ join (lit ", ") (List.map repr_dict l) ++ lit "]".
End Repr.

End Py.

Import Py.

(** ** State, effects and runs *)

(** [AgentState], the TypedDict threaded through the graph. *)
Record AgentState : Type := mkState {
  query : str;
  trends : list str;
  context_reports : list str;
  final_report : str
}.

(** A node returns a dict holding some of the keys of [AgentState]; the graph
    merges it into the state, each key overwriting the old value. *)
Inductive update_item : Type :=
| U_query (v : str)
| U_trends (v : list str)
| U_context_reports (v : list str)
| U_final_report (v : str).

Definition update : Type := list update_item.

Definition apply_item (st : AgentState) (it : update_item) : AgentState :=
  match it with
  | U_query v => mkState v (trends st) (context_reports st) (final_report st)
  | U_trends v => mkState (query st) v (context_reports st) (final_report st)
  | U_context_reports v => mkState (query st) (trends st) v (final_report st)
  | U_final_report v => mkState (query st) (trends st) (context_reports st) v
  end.

Definition merge (st : AgentState) (u : update) : AgentState :=
  fold_left apply_item u st.

(** [AgentMessage(text=...)], the outbound message of the agent stack. *)
Record AgentMessage : Type := mkAgentMessage { text : str }.

(** The inbound side of the agent stack: the [Message] type of a2a and
    [get_message_text], which the handler calls and the script imports. *)
Class A2A : Type := {
  Message : Type;
  get_message_text : Message -> str
}.

(** Programs: what a coroutine of the script does, as a tree of its calls to
    the outside.  [Ainvoke] is [await llm.ainvoke(prompt)] followed by
    [.content]; [Results] is [search_wrapper.results(query, max_results=n)];
    [Enter] marks the graph starting a node on a state. *)
Inductive prog (A : Type) : Type :=
| Ret (a : A)
| Raise (exn : string)
| Ainvoke (prompt : str) (k : str -> prog A)
| Results (q : str) (max_results : N) (k : list dict -> prog A)
| Print (line : str) (k : prog A)
| Yield (m : AgentMessage) (k : prog A)
| Enter (node : string) (st : AgentState) (k : prog A).

Arguments Ret {A} a.
Arguments Raise {A} exn.
Arguments Ainvoke {A} prompt k.
Arguments Results {A} q max_results k.
Arguments Print {A} line k.
Arguments Yield {A} m k.
Arguments Enter {A} node st k.

Fixpoint bind {A B : Type} (p : prog A) (f : A -> prog B) : prog B :=
  match p with
  | Ret a => f a
  | Raise exn => Raise exn
  | Ainvoke prompt k => Ainvoke prompt (fun r => bind (k r) f)
  | Results q n k => Results q n (fun r => bind (k r) f)
  | Print line k => Print line (bind k f)
  | Yield m k => Yield m (bind k f)
  | Enter node st k => Enter node st (bind k f)
  end.

Declare Scope prog_scope.
Delimit Scope prog_scope with prog.
Notation "x <- p ;; q" := (bind p (fun x => q))
  (at level 61, p at next level, right associativity) : prog_scope.
Notation "p ;; q" := (bind p (fun _ => q))
  (at level 61, right associativity) : prog_scope.
Local Open Scope prog_scope.

Definition ainvoke (prompt : str) : prog str := Ainvoke prompt Ret.
Definition results (q : str) (max_results : N) : prog (list dict) :=
  Results q max_results Ret.
Definition print (line : str) : prog unit := Print line (Ret tt).
Definition yield (m : AgentMessage) : prog unit := Yield m (Ret tt).
Definition enter (node : string) (st : AgentState) : prog unit :=
  Enter node st (Ret tt).

(** What a run leaves behind, oldest event first. *)
Inductive event : Type :=
| Llm (prompt reply : str)
| Search (q : str) (max_results : N) (found : list dict)
| Printed (line : str)
| Yielded (m : AgentMessage)
| Entered (node : string) (st : AgentState).

(** The two collaborators.  Each answer may depend on everything that
    happened before, so that asking twice need not give the same answer.  A
    collaborator that fails aborts the request at the server and is outside
    this development. *)
Record Env : Type := mkEnv {
  llm_content : list event -> str -> str;
  search_found : list event -> str -> N -> list dict
}.

Inductive outcome (A : Type) : Type :=
| Done (a : A)
| Raised (exn : string).

Arguments Done {A} a.
Arguments Raised {A} exn.

(** [run env p h]: execute [p] after the history [h]. *)
Fixpoint run {A : Type} (env : Env) (p : prog A) (h : list event)
  : list event * outcome A :=
  match p with
  | Ret a => (h, Done a)
  | Raise exn => (h, Raised exn)
  | Ainvoke prompt k =>
      let reply := llm_content env h prompt in
      run env (k reply) (h ++ [Llm prompt reply])
  | Results q n k =>
      let found := search_found env h q n in
      run env (k found) (h ++ [Search q n found])
  | Print line k => run env k (h ++ [Printed line])
  | Yield m k => run env k (h ++ [Yielded m])
  | Enter node st k => run env k (h ++ [Entered node st])
  end.

(** ** The agent: nodes, graph and handler *)

Section Agent.
Context `{UnicodeData} `{A2A}.

(** *** Node [get_trends] *)

Definition country_prompt (user_query : str) : str :=
  lit "Identify if a specific country is mentioned in the following user query. "
  ++ lit "Return only the country name in English (lowercase), or 'global' if no country is specified. "
  ++ lit "Return ONLY the word, no explanation. "
  ++ lit "Query: " ++ user_query.

(** [content.strip().lower().replace(QUOTE, empty).replace(DQUOTE, empty)] *)
Definition country_of (content : str) : str :=
  replace DQUOTE [] (replace QUOTE [] (lower (strip content))).

Definition base_url : str := lit "https://trends24.in/".

Definition url_of (country : str) : str :=
  if negb (str_eqb country (lit "global"))
  then base_url ++ country ++ lit "/"
  else base_url.

Definition search_query_of (country : str) : str :=
  lit "site:trends24.in top trending topics "
  ++ (if negb (str_eqb country (lit "global")) then country else []).

(** [[r.get(SNIPPET, empty) for r in results]] *)
Definition snippets (found : list dict) : list str :=
  List.map (fun r => get r (lit "snippet") []) found.

Definition results_text_of (found : list dict) : str :=
  join [NL] (snippets found).

Definition extract_prompt (url results_text : str) : str :=
  lit "Based on these search results for " ++ url
  ++ lit ", extract EXACTLY the TOP 5 trending topics for today. "
  ++ lit "Return them as a comma-separated list, nothing else. "
  ++ lit "Results:" ++ [NL] ++ results_text.

(** [[t.strip() for t in content.split(COMMA) if t.strip()]] *)
Definition trends_of (content : str) : list str :=
  List.map strip (filter (fun t => truthy (strip t)) (split COMMA content)).

(** The console line of this node. *)
Definition searching_line (country url : str) : str :=
  lit "--- [LangGraph] Searching for trends in country: " ++ country
  ++ lit " at " ++ url ++ lit " ---".

Definition analyze_and_get_trends (state : AgentState) : prog update :=
  let user_query := query state in
  country_res <- ainvoke (country_prompt user_query) ;;
  let country := country_of country_res in
  let url := url_of country in
  print (searching_line country url) ;;
  let search_query := search_query_of country in
  found <- results search_query 5 ;;
  let results_text := results_text_of found in
  trends_res <- ainvoke (extract_prompt url results_text) ;;
  let trends := trends_of trends_res in
  Ret [U_trends (firstn 5 trends)].

(** *** Node [research_context] *)

Definition context_query (trend : str) : str :=
  lit "why is " ++ trend ++ lit " trending news today source article".

Definition context_prompt (trend : str) (search_results : list dict) : str :=
  lit "Explain briefly why '" ++ trend
  ++ lit "' is trending. Use the search results below. "
  ++ lit "You MUST include at least one source URL from the results. "
  ++ lit "Format: Friendly explanation followed by [Source: URL]" ++ [NL; NL]
  ++ lit "Search Results:" ++ [NL] ++ repr_list search_results.

Definition investigating_line (trend : str) : str :=
  lit "--- [LangGraph] Investigating context for: " ++ trend ++ lit " ---".

(** The [for] loop, with the list [reports] it appends to. *)
Fixpoint research_loop (todo : list str) (reports : list str)
  : prog (list str) :=
  match todo with
  | [] => Ret reports
  | trend :: rest =>
      print (investigating_line trend) ;;
      search_results <- results (context_query trend) 3 ;;
      context_res <- ainvoke (context_prompt trend search_results) ;;
      research_loop rest (reports ++ [strip context_res])
  end.

Definition research_trends_context (state : AgentState) : prog update :=
  reports <- research_loop (trends state) [] ;;
  Ret [U_context_reports reports].

(** *** Node [synthesize] *)

Definition reports_text_of (reports : list str) : str :=
  join [NL; NL] reports.

Definition final_prompt (reports_text : str) : str :=
  lit "Synthesize the following trend analysis into a single, coherent, and friendly report. "
  ++ lit "You are an insightful X trends analyst. Use emojis (" ++ [128161]
  ++ lit ", " ++ [128240] ++ lit ", " ++ [128640]
  ++ lit ", etc.) to make it engaging. "
  ++ lit "Ensure each of the 5 trends has its explanation and MUST include the source URL. "
  ++ lit "Greet the user as a friend." ++ [NL; NL]
  ++ lit "Context Reports:" ++ [NL] ++ reports_text.

Definition synthesize_report (state : AgentState) : prog update :=
  let reports_text := reports_text_of (context_reports state) in
  final_res <- ainvoke (final_prompt reports_text) ;;
  Ret [U_final_report (strip final_res)].

(** *** The graph *)

Inductive target : Type :=
| To (node : string)
| END.

Record StateGraph : Type := mkGraph {
  nodes : list (string * (AgentState -> prog update));
  entry_point : option string;
  edges : list (string * target)
}.

Definition new_graph : StateGraph := mkGraph [] None [].

Definition add_node (name : string) (f : AgentState -> prog update)
    (g : StateGraph) : StateGraph :=
  mkGraph (nodes g ++ [(name, f)]) (entry_point g) (edges g).

Definition set_entry_point (name : string) (g : StateGraph) : StateGraph :=
  mkGraph (nodes g) (Some name) (edges g).

Definition add_edge (src : string) (dst : target) (g : StateGraph)
  : StateGraph :=
  mkGraph (nodes g) (entry_point g) (edges g ++ [(src, dst)]).

Fixpoint assoc {V : Type} (l : list (string * V)) (name : string) : option V :=
  match l with
  | [] => None
  | (k, v) :: l' => if String.eqb k name then Some v else assoc l' name
  end.

Local Notation "g |> f" := (f g) (at level 50, left associativity, only parsing).

Definition workflow : StateGraph :=
  new_graph
  |> add_node "get_trends" analyze_and_get_trends
  |> add_node "research_context" research_trends_context
  |> add_node "synthesize" synthesize_report
  |> set_entry_point "get_trends"
  |> add_edge "get_trends" (To "research_context")
  |> add_edge "research_context" (To "synthesize")
  |> add_edge "synthesize" END.

(** The executor of a compiled graph whose nodes have one successor each:
    start at the entry point, run the node, merge its update, follow its
    edge; a node without an edge ends the run.  LangGraph stops with
    [GraphRecursionError] after [recursion_limit] steps. *)
Definition recursion_limit : nat := 25.

Fixpoint steps (g : StateGraph) (fuel : nat) (cur : target)
    (st : AgentState) : prog AgentState :=
  match cur with
  | END => Ret st
  | To name =>
      match fuel with
      | O => Raise "GraphRecursionError"
      | S fuel' =>
          match assoc (nodes g) name with
          | None => Raise "KeyError"
          | Some f =>
              enter name st ;;
              u <- f st ;;
              let st' := merge st u in
              match assoc (edges g) name with
              | Some next => steps g fuel' next st'
              | None => Ret st'
              end
          end
      end
  end.

Definition graph_ainvoke (g : StateGraph) (initial : AgentState)
  : prog AgentState :=
  match entry_point g with
  | Some name => steps g recursion_limit (To name) initial
  | None => Raise "ValueError"
  end.

(** [app = workflow.compile()] *)
Definition app : StateGraph := workflow.

(** *** The handler *)

Definition initial_state (user_query : str) : AgentState :=
  mkState user_query [] [] [].

Definition receiving_line (user_query : str) : str :=
  lit "--- [LangGraph] Receiving query: '" ++ user_query ++ lit "' ---".

(** The [RunContext] argument of the handler is not used by it. *)
Definition langgraph_trends_agent (input : Message) : prog unit :=
  let user_query := get_message_text input in
  print (receiving_line user_query) ;;
  result <- graph_ainvoke app (initial_state user_query) ;;
  yield (mkAgentMessage (final_report result)).

End Agent.

(** ** The same agent in [src/beeai_agents/agent.py]

    The second script has the same prompts, queries, graph and handler; its
    three console lines are in Spanish.  It is modelled from its own text,
    sharing the prompt builders of the first script, which are literally
    the same. *)

Module BeeAI.
Section Agent.
Context `{UnicodeData} `{A2A}.

Definition searching_line (country url : str) : str :=
  lit "--- [LangGraph] Buscando tendencias para el pa" ++ [237]
  ++ lit "s: " ++ country ++ lit " en " ++ url ++ lit " ---".

Definition analyze_and_get_trends (state : AgentState) : prog update :=
  let user_query := query state in
  country_res <- ainvoke (country_prompt user_query) ;;
  let country := country_of country_res in
  let url := url_of country in
  print (searching_line country url) ;;
  let search_query := search_query_of country in
  found <- results search_query 5 ;;
  let results_text := results_text_of found in
  trends_res <- ainvoke (extract_prompt url results_text) ;;
  let trends := trends_of trends_res in
  Ret [U_trends (firstn 5 trends)].

Definition investigating_line (trend : str) : str :=
  lit "--- [LangGraph] Investigando contexto para: " ++ trend ++ lit " ---".

Fixpoint research_loop (todo : list str) (reports : list str)
  : prog (list str) :=
  match todo with
  | [] => Ret reports
  | trend :: rest =>
      print (investigating_line trend) ;;
      search_results <- results (context_query trend) 3 ;;
      context_res <- ainvoke (context_prompt trend search_results) ;;
      research_loop rest (reports ++ [strip context_res])
  end.

Definition research_trends_context (state : AgentState) : prog update :=
  reports <- research_loop (trends state) [] ;;
  Ret [U_context_reports reports].

Definition synthesize_report (state : AgentState) : prog update :=
  let reports_text := reports_text_of (context_reports state) in
  final_res <- ainvoke (final_prompt reports_text) ;;
  Ret [U_final_report (strip final_res)].

Local Notation "g |> f" := (f g) (at level 50, left associativity, only parsing).

Definition workflow : StateGraph :=
  new_graph
  |> add_node "get_trends" analyze_and_get_trends
  |> add_node "research_context" research_trends_context
  |> add_node "synthesize" synthesize_report
  |> set_entry_point "get_trends"
  |> add_edge "get_trends" (To "research_context")
  |> add_edge "research_context" (To "synthesize")
  |> add_edge "synthesize" END.

Definition app : StateGraph := workflow.

Definition receiving_line (user_query : str) : str :=
  lit "--- [LangGraph] Recibiendo query: '" ++ user_query ++ lit "' ---".

Definition langgraph_trends_agent (input : Message) : prog unit :=
  let user_query := get_message_text input in
  print (receiving_line user_query) ;;
  result <- graph_ainvoke app (initial_state user_query) ;;
  yield (mkAgentMessage (final_report result)).

End Agent.
End BeeAI.

(** ** Concrete collaborators, for running the agent on examples *)

Definition ascii_lower (c : N) : N :=
  if (65 <=? c) && (c <=? 90) then c + 32 else c.

(** The Unicode tables cut down to ASCII text.  On a string of code points
    below 128, [lower] is [str.lower]; [repr] consults [isprintable] above
    126 only.  Meant for ASCII examples. *)
Definition ascii_tables : UnicodeData :=
  {| lower := List.map ascii_lower; isprintable := fun _ => false |}.

(** Inbound messages that are one piece of text. *)
Definition text_messages : A2A :=
  {| Message := str; get_message_text := fun m => m |}.

Definition is_llm (e : event) : bool :=
  match e with Llm _ _ => true | _ => false end.

Definition is_search (e : event) : bool :=
  match e with Search _ _ _ => true | _ => false end.

(** An environment that reads its answers from two scripts: the k-th model
    call gets the k-th reply and the k-th search the k-th result list; past
    the end of a script the answer is empty. *)
Definition scripted (replies : list str) (founds : list (list dict)) : Env :=
  {| llm_content := fun h _ => nth (List.length (filter is_llm h)) replies [];
     search_found := fun h _ _ => nth (List.length (filter is_search h)) founds [] |}.

(** *** Sample requests *)

(** Two result lists with the same snippets and different links. *)
Definition found_a : list dict :=
  [ [ (lit "snippet", lit "AI summit opens");
      (lit "title", lit "Summit");
      (lit "link", lit "https://a.example/1") ] ].

Definition found_b : list dict :=
  [ [ (lit "snippet", lit "AI summit opens");
      (lit "title", lit "Summit");
      (lit "link", lit "https://b.example/2") ] ].

Definition env_a : Env := scripted [lit "global"; lit "AI, Bitcoin"] [found_a].
Definition env_b : Env := scripted [lit "global"; lit "AI, Bitcoin"] [found_b].

(** The extraction reply is one phrase. *)
Definition env_phrase : Env :=
  scripted
    [ lit "mexico"; lit "Bad Bunny";
      lit "He announced a tour. [Source: https://news.example/bb]";
      lit "Hi friend!" ]
    [].

(** The extraction reply holds no trend. *)
Definition env_blank : Env :=
  scripted [lit "japan"; lit " , ,"; lit "Nothing to report."] [].

(** The model finds no country in the query. *)
Definition env_global : Env := scripted [lit "global"; lit "AI"] [].

(** The model lists six labels. *)
Definition env_six : Env :=
  scripted [lit "global"; lit "a, b, c, d, e, f"] [].

(** ** Observations on a trace *)

Definition llm_calls (tr : list event) : list (str * str) :=
  flat_map (fun e => match e with Llm p r => [(p, r)] | _ => [] end) tr.

Definition searches (tr : list event) : list (str * N) :=
  flat_map (fun e => match e with Search q n _ => [(q, n)] | _ => [] end) tr.

Definition yielded (tr : list event) : list AgentMessage :=
  flat_map (fun e => match e with Yielded m => [m] | _ => [] end) tr.

Definition entered (tr : list event) : list (string * AgentState) :=
  flat_map (fun e => match e with Entered n st => [(n, st)] | _ => [] end) tr.

Definition printed (tr : list event) : list str :=
  flat_map (fun e => match e with Printed l => [l] | _ => [] end) tr.

Definition is_printed (e : event) : bool :=
  match e with Printed _ => true | _ => false end.

(** A trace without its console lines. *)
Definition noprint (tr : list event) : list event :=
  filter (fun e => negb (is_printed e)) tr.

(** An environment whose answers do not depend on what was printed. *)
Definition print_blind (env : Env) : Prop :=
  forall h h' : list event,
    noprint h = noprint h' ->
    (forall p, llm_content env h p = llm_content env h' p)
    /\ (forall q n, search_found env h q n = search_found env h' q n).

(** Two programs that differ at most in the text of their console lines. *)
Inductive same_calls {A : Type} : prog A -> prog A -> Prop :=
| same_Ret (a : A) : same_calls (Ret a) (Ret a)
| same_Raise (exn : string) : same_calls (Raise exn) (Raise exn)
| same_Ainvoke (prompt : str) (k k' : str -> prog A) :
    (forall r, same_calls (k r) (k' r)) ->
    same_calls (Ainvoke prompt k) (Ainvoke prompt k')
| same_Results (q : str) (n : N) (k k' : list dict -> prog A) :
    (forall r, same_calls (k r) (k' r)) ->
    same_calls (Results q n k) (Results q n k')
| same_Print (line line' : str) (k k' : prog A) :
    same_calls k k' -> same_calls (Print line k) (Print line' k')
| same_Yield (m : AgentMessage) (k k' : prog A) :
    same_calls k k' -> same_calls (Yield m k) (Yield m k')
| same_Enter (node : string) (st : AgentState) (k k' : prog A) :
    same_calls k k' -> same_calls (Enter node st k) (Enter node st k').

(** ** The shape of a run *)

Section Shapes.
Context `{UnicodeData}.

(** What node [get_trends] does on [user_query] when the model answers
    [reply1] then [reply2] and the search answers [found]. *)
Definition get_trends_events (user_query reply1 : str) (found : list dict)
    (reply2 : str) : list event :=
  let country := country_of reply1 in
  [ Llm (country_prompt user_query) reply1;
    Printed (searching_line country (url_of country));
    Search (search_query_of country) 5 found;
    Llm (extract_prompt (url_of country) (results_text_of found)) reply2 ].

(** One round of the research loop: [answer] is what the search found and
    what the model replied. *)
Definition research_events (trend : str) (answer : list dict * str)
  : list event :=
  [ Printed (investigating_line trend);
    Search (context_query trend) 3 (fst answer);
    Llm (context_prompt trend (fst answer)) (snd answer) ].

Definition research_all (todo : list str) (answers : list (list dict * str))
  : list event :=
  flat_map (fun ta => research_events (fst ta) (snd ta)) (combine todo answers).

Definition reports_of (answers : list (list dict * str)) : list str :=
  List.map (fun a => strip (snd a)) answers.

(** Everything the collaborators said during one request. *)
Record Answers : Type := mkAnswers {
  country_reply : str;
  trends_found : list dict;
  trends_reply : str;
  research_answers : list (list dict * str);
  final_reply : str
}.

Definition trends_after (a : Answers) : list str :=
  firstn 5 (trends_of (trends_reply a)).

(** The whole request on [user_query], given the answers. *)
Definition request_events (user_query : str) (a : Answers) : list event :=
  let ts := trends_after a in
  let rs := reports_of (research_answers a) in
  [ Printed (receiving_line user_query);
    Entered "get_trends" (initial_state user_query) ]
  ++ get_trends_events user_query (country_reply a) (trends_found a)
       (trends_reply a)
  ++ [ Entered "research_context" (mkState user_query ts [] []) ]
  ++ research_all ts (research_answers a)
  ++ [ Entered "synthesize" (mkState user_query ts rs []);
       Llm (final_prompt (reports_text_of rs)) (final_reply a);
       Yielded (mkAgentMessage (strip (final_reply a))) ].

End Shapes.

(** ** Predicates on text *)

(** No whitespace at either end. *)
Definition trimmed (t : str) : bool :=
  match t with
  | [] => true
  | c :: _ => negb (isspace c) && negb (isspace (last t c))
  end.

Definition has (c : N) (s : str) : bool := existsb (N.eqb c) s.

(** [piece] is the label [t] with whitespace around it, [t] being a
    non-empty text without comma and without whitespace at its own ends. *)
Definition padded_label (piece t : str) : Prop :=
  exists l r,
    piece = l ++ t ++ r
    /\ forallb isspace l = true /\ forallb isspace r = true
    /\ has COMMA t = false /\ trimmed t = true /\ t <> [].

(** ** Facts on the text functions *)

Section TextFacts.

Lemma str_eqb_eq (a b : str) : str_eqb a b = true <-> a = b.
Proof.
  unfold str_eqb. destruct (list_eq_dec N.eq_dec a b); split; congruence.
Qed.

Lemma has_In (c : N) (s : str) : has c s = true <-> In c s.
Proof.
  unfold has. rewrite existsb_exists. split.
  - intros [x [Hx Heq]]. apply N.eqb_eq in Heq. now subst.
  - intros Hin. exists c. split; [assumption | apply N.eqb_refl].
Qed.

Lemma has_false (c : N) (s : str) : has c s = false <-> ~ In c s.
Proof.
  rewrite <- has_In. destruct (has c s); split; congruence.
Qed.

(** *** [strip] *)

Lemma lstrip_head (s : str) (c : N) (t : str) :
  lstrip s = c :: t -> isspace c = false.
Proof.
  induction s as [|a s IH]; simpl; [discriminate|].
  destruct (isspace a) eqn:Ha; [exact IH|].
  intros E. injection E as -> _. exact Ha.
Qed.

Lemma lstrip_fixed (s : str) :
  (forall c t, s = c :: t -> isspace c = false) -> lstrip s = s.
Proof.
  destruct s as [|a s]; simpl; [reflexivity|].
  intros Hs. now rewrite (Hs a s eq_refl).
Qed.

Lemma lstrip_In (s : str) (c : N) : In c (lstrip s) -> In c s.
Proof.
  induction s as [|a s IH]; simpl; [tauto|].
  destruct (isspace a); simpl; tauto.
Qed.

Lemma rstrip_cons (c : N) (s : str) :
  rstrip (c :: s) =
    if truthy (rstrip s) then c :: rstrip s
    else if isspace c then [] else [c].
Proof.
  simpl. destruct (rstrip s); reflexivity.
Qed.

Lemma rstrip_head (s : str) (c : N) (t : str) :
  isspace c = false -> exists r, rstrip (c :: t) = c :: r.
Proof.
  intros Hc. rewrite rstrip_cons, Hc.
  destruct (truthy (rstrip t)); eauto.
Qed.

Lemma rstrip_idem (s : str) : rstrip (rstrip s) = rstrip s.
Proof.
  induction s as [|c s IH]; [reflexivity|].
  rewrite rstrip_cons.
  destruct (rstrip s) as [|a r] eqn:E; simpl truthy; cbv iota.
  - destruct (isspace c) eqn:Hc; [reflexivity|].
    simpl. now rewrite Hc.
  - rewrite rstrip_cons, IH. reflexivity.
Qed.

Lemma rstrip_In (s : str) (c : N) : In c (rstrip s) -> In c s.
Proof.
  induction s as [|a s IH]; [tauto|].
  rewrite rstrip_cons.
  destruct (truthy (rstrip s)); [simpl; tauto|].
  destruct (isspace a); simpl; tauto.
Qed.

Lemma rstrip_last (s : str) (d : N) :
  rstrip s <> [] -> isspace (last (rstrip s) d) = false.
Proof.
  induction s as [|c s IH]; [simpl; congruence|].
  rewrite rstrip_cons.
  destruct (rstrip s) as [|a r] eqn:E; simpl truthy; cbv iota.
  - destruct (isspace c) eqn:Hc; [congruence|]. intros _. exact Hc.
  - intros _. change (last (c :: a :: r) d) with (last (a :: r) d).
    apply IH. discriminate.
Qed.

Lemma rstrip_fixed (s : str) (d : N) :
  s <> [] -> isspace (last s d) = false -> rstrip s = s.
Proof.
  induction s as [|c s IH]; [congruence|].
  intros _ Hl. rewrite rstrip_cons.
  destruct s as [|a s].
  - simpl in *. now rewrite Hl.
  - change (last (c :: a :: s) d) with (last (a :: s) d) in Hl.
    rewrite IH by (assumption || discriminate). reflexivity.
Qed.

(** [strip] removes whitespace, and only whitespace, from the two ends. *)
Lemma lstrip_spec (s : str) :
  exists a, s = a ++ lstrip s /\ forallb isspace a = true.
Proof.
  induction s as [|c s (a & Hs & Ha)]; simpl.
  - exists []. auto.
  - destruct (isspace c) eqn:Hc.
    + exists (c :: a). simpl. rewrite Hc, Ha. split; [congruence | reflexivity].
    + exists []. auto.
Qed.

Lemma rstrip_spec (s : str) :
  exists b, s = rstrip s ++ b /\ forallb isspace b = true.
Proof.
  induction s as [|c s (b & Hs & Hb)].
  - exists []. auto.
  - rewrite rstrip_cons. destruct (rstrip s) as [|a r] eqn:E; simpl truthy;
      cbv iota.
    + simpl in Hs. subst s. destruct (isspace c) eqn:Hc.
      * exists (c :: b). simpl. rewrite Hc, Hb. auto.
      * exists b. auto.
    + exists b. split; [|exact Hb]. simpl in Hs |- *. congruence.
Qed.

Lemma strip_spec (s : str) :
  exists a b,
    s = a ++ strip s ++ b
    /\ forallb isspace a = true /\ forallb isspace b = true.
Proof.
  destruct (lstrip_spec s) as (a & Hs & Ha).
  destruct (rstrip_spec (lstrip s)) as (b & Hl & Hb).
  exists a, b. unfold strip. rewrite <- Hl. auto.
Qed.

Lemma strip_head (s : str) (c : N) (t : str) :
  strip s = c :: t -> isspace c = false.
Proof.
  unfold strip. destruct (lstrip s) as [|a r] eqn:E; [discriminate|].
  pose proof (lstrip_head _ _ _ E) as Ha.
  destruct (rstrip_head s a r Ha) as [r' ->].
  intros E'. injection E' as <- _. exact Ha.
Qed.

Lemma strip_idem (s : str) : strip (strip s) = strip s.
Proof.
  unfold strip at 1.
  rewrite (lstrip_fixed (strip s)) by (intros c t; apply strip_head).
  apply rstrip_idem.
Qed.

Lemma strip_In (s : str) (c : N) : In c (strip s) -> In c s.
Proof.
  intros Hin. apply lstrip_In, rstrip_In. exact Hin.
Qed.

Lemma strip_trimmed (s : str) : trimmed (strip s) = true.
Proof.
  unfold trimmed. pose proof (rstrip_last (lstrip s)) as Hl.
  fold (strip s) in Hl.
  destruct (strip s) as [|c t] eqn:E; [reflexivity|].
  rewrite (strip_head _ _ _ E), Hl by discriminate. reflexivity.
Qed.

Lemma trimmed_strip (t : str) : trimmed t = true -> strip t = t.
Proof.
  unfold trimmed, strip. destruct t as [|c t]; [reflexivity|].
  intros Ht. apply andb_true_iff in Ht as [Hc Hl].
  apply negb_true_iff in Hc, Hl.
  rewrite lstrip_fixed by (intros a r E; injection E as <- _; exact Hc).
  apply (rstrip_fixed _ c); [discriminate | exact Hl].
Qed.

(** *** [split], [join], [replace] *)

Lemma split_not_nil (sep : N) (s : str) : split sep s <> [].
Proof.
  destruct s as [|c s]; simpl; [discriminate|].
  destruct (c =? sep); [discriminate|].
  destruct (split sep s); discriminate.
Qed.

Lemma split_no_sep (sep : N) (s : str) :
  Forall (fun p => ~ In sep p) (split sep s).
Proof.
  induction s as [|c s IH]; simpl.
  - constructor; [tauto | constructor].
  - destruct (c =? sep) eqn:Hc.
    + constructor; [tauto | exact IH].
    + apply N.eqb_neq in Hc.
      destruct (split sep s) as [|p ps].
      * constructor; [|constructor]. simpl. intuition congruence.
      * inversion IH as [|? ? Hp Hps]; subst.
        constructor; [|exact Hps]. simpl. intuition congruence.
Qed.

Lemma split_single (sep : N) (s : str) : ~ In sep s -> split sep s = [s].
Proof.
  induction s as [|c s IH]; simpl; [reflexivity|].
  intros Hn. destruct (c =? sep) eqn:Hc.
  - apply N.eqb_eq in Hc. tauto.
  - rewrite IH by tauto. reflexivity.
Qed.

(** Joining the pieces on the separator gives the text back. *)
Lemma join_split (sep : N) (s : str) : join [sep] (split sep s) = s.
Proof.
  induction s as [|c s IH]; [reflexivity|]. simpl split.
  destruct (c =? sep) eqn:Hc.
  - apply N.eqb_eq in Hc. subst c.
    pose proof (split_not_nil sep s) as Hne.
    simpl. destruct (split sep s) as [|p ps]; [congruence|].
    now rewrite IH.
  - destruct (split sep s) as [|p ps] eqn:E.
    + now apply split_not_nil in E.
    + simpl in IH |- *. destruct ps; simpl; now rewrite <- IH.
Qed.

Lemma replace_absent (old : N) (new s : str) :
  ~ In old s -> replace old new s = s.
Proof.
  unfold replace. induction s as [|c s IH]; simpl; [reflexivity|].
  intros Hn. destruct (c =? old) eqn:Hc.
  - apply N.eqb_eq in Hc. tauto.
  - simpl. rewrite IH by tauto. reflexivity.
Qed.

Lemma replace_empty_In (old c : N) (s : str) :
  In c (replace old [] s) <-> In c s /\ c <> old.
Proof.
  unfold replace. induction s as [|a s IH]; simpl; [tauto|].
  destruct (a =? old) eqn:Ha.
  - apply N.eqb_eq in Ha. subst a. simpl. rewrite IH. intuition congruence.
  - apply N.eqb_neq in Ha. simpl. rewrite IH. intuition congruence.
Qed.

Lemma firstn_In {A : Type} (n : nat) (l : list A) (x : A) :
  In x (firstn n l) -> In x l.
Proof.
  revert l. induction n as [|n IH]; intros [|a l]; simpl; try tauto.
  intros [->|Hin]; [now left | right; now apply IH].
Qed.

(** *** The trend list read off a reply *)

Lemma trends_of_entries (content : str) :
  Forall (fun t => has COMMA t = false /\ trimmed t = true /\ t <> [])
         (trends_of content).
Proof.
  unfold trends_of. apply Forall_map, Forall_forall.
  intros p Hp. apply filter_In in Hp as [Hp Ht].
  pose proof (split_no_sep COMMA content) as Hs.
  rewrite Forall_forall in Hs. specialize (Hs p Hp).
  repeat split.
  - apply has_false. intros Hin. apply Hs. now apply strip_In.
  - apply strip_trimmed.
  - intros E. rewrite E in Ht. discriminate.
Qed.

Lemma trends_of_single (content : str) :
  has COMMA content = false -> strip content <> [] ->
  trends_of content = [strip content].
Proof.
  intros Hc Hs. unfold trends_of.
  rewrite split_single by now apply has_false.
  simpl. destruct (strip content) eqn:E; [congruence|].
  simpl. now rewrite E.
Qed.

(** *** The country token *)

(** Whatever [lower] does, the token holds neither kind of quote. *)
Lemma country_of_no_quotes `{UnicodeData} (content : str) :
  has QUOTE (country_of content) = false
  /\ has DQUOTE (country_of content) = false.
Proof.
  unfold country_of. split; apply has_false; intros Hin.
  - apply replace_empty_In in Hin as [Hin _].
    apply replace_empty_In in Hin as [_ Hne]. congruence.
  - apply replace_empty_In in Hin as [_ Hne]. congruence.
Qed.

End TextFacts.

(** ** Facts on runs *)

Arguments lit : simpl never.

Section RunFacts.
Context `{UnicodeData} `{A2A}.
Variable env : Env.

Lemma run_bind {A B : Type} (p : prog A) (f : A -> prog B) (h : list event) :
  run env (bind p f) h =
    match run env p h with
    | (h', Done a) => run env (f a) h'
    | (h', Raised exn) => (h', Raised exn)
    end.
Proof.
  revert h. induction p; intros h; simpl; auto.
Qed.

Lemma run_ainvoke (prompt : str) (h : list event) :
  run env (ainvoke prompt) h =
    (h ++ [Llm prompt (llm_content env h prompt)],
     Done (llm_content env h prompt)).
Proof. reflexivity. Qed.

Lemma run_results (q : str) (n : N) (h : list event) :
  run env (results q n) h =
    (h ++ [Search q n (search_found env h q n)],
     Done (search_found env h q n)).
Proof. reflexivity. Qed.

Lemma run_print (line : str) (h : list event) :
  run env (print line) h = (h ++ [Printed line], Done tt).
Proof. reflexivity. Qed.

Lemma run_yield (m : AgentMessage) (h : list event) :
  run env (yield m) h = (h ++ [Yielded m], Done tt).
Proof. reflexivity. Qed.

Lemma run_enter (node : string) (st : AgentState) (h : list event) :
  run env (enter node st) h = (h ++ [Entered node st], Done tt).
Proof. reflexivity. Qed.

Lemma run_Ret {A : Type} (a : A) (h : list event) :
  run env (Ret a) h = (h, Done a).
Proof. reflexivity. Qed.

Ltac run_step :=
  rewrite ?run_bind;
  first [ rewrite run_ainvoke | rewrite run_results | rewrite run_print
        | rewrite run_yield | rewrite run_enter | rewrite run_Ret ];
  cbv beta iota zeta.

Lemma analyze_run_with (st : AgentState) (h : list event) :
  let reply1 := llm_content env h (country_prompt (query st)) in
  let country := country_of reply1 in
  let h1 := h ++ [Llm (country_prompt (query st)) reply1;
                  Printed (searching_line country (url_of country))] in
  let found := search_found env h1 (search_query_of country) 5 in
  let h2 := h1 ++ [Search (search_query_of country) 5 found] in
  let reply2 :=
    llm_content env h2
      (extract_prompt (url_of country) (results_text_of found)) in
  run env (analyze_and_get_trends st) h =
    (h ++ get_trends_events (query st) reply1 found reply2,
     Done [U_trends (firstn 5 (trends_of reply2))]).
Proof.
  unfold analyze_and_get_trends, get_trends_events.
  cbv zeta. do 5 run_step.
  rewrite <- !app_assoc. simpl app. reflexivity.
Qed.

Lemma analyze_run (st : AgentState) (h : list event) :
  exists reply1 found reply2,
    run env (analyze_and_get_trends st) h =
      (h ++ get_trends_events (query st) reply1 found reply2,
       Done [U_trends (firstn 5 (trends_of reply2))]).
Proof.
  do 3 eexists. apply analyze_run_with.
Qed.

Lemma research_loop_step (trend : str) (rest reports : list str)
    (h : list event) :
  let h1 := h ++ [Printed (investigating_line trend)] in
  let found := search_found env h1 (context_query trend) 3 in
  let h2 := h1 ++ [Search (context_query trend) 3 found] in
  let reply := llm_content env h2 (context_prompt trend found) in
  run env (research_loop (trend :: rest) reports) h =
    run env (research_loop rest (reports ++ [strip reply]))
        (h ++ research_events trend (found, reply)).
Proof.
  cbv zeta. cbn [research_loop bind print results ainvoke run].
  unfold research_events. rewrite <- !app_assoc. reflexivity.
Qed.

Lemma research_loop_run (todo : list str) :
  forall (reports : list str) (h : list event),
  exists answers,
    List.length answers = List.length todo /\
    run env (research_loop todo reports) h =
      (h ++ research_all todo answers, Done (reports ++ reports_of answers)).
Proof.
  induction todo as [|trend rest IH]; intros reports h.
  - exists []. simpl. rewrite !app_nil_r. auto.
  - pose proof (research_loop_step trend rest reports h) as Hstep.
    cbv zeta in Hstep.
    match type of Hstep with
    | _ = run env (research_loop rest ?r) (h ++ research_events trend ?a) =>
        destruct (IH r (h ++ research_events trend a))
          as [answers [Hlen Hrun]];
        exists (a :: answers)
    end.
    split; [simpl; now rewrite Hlen|].
    rewrite Hstep, Hrun. unfold research_all, reports_of. simpl flat_map.
    simpl List.map. rewrite <- !app_assoc. reflexivity.
Qed.

Lemma research_run (st : AgentState) (h : list event) :
  exists answers,
    List.length answers = List.length (trends st) /\
    run env (research_trends_context st) h =
      (h ++ research_all (trends st) answers,
       Done [U_context_reports (reports_of answers)]).
Proof.
  unfold research_trends_context.
  destruct (research_loop_run (trends st) [] h) as [answers [Hlen Hrun]].
  exists answers. split; [exact Hlen|].
  rewrite run_bind, Hrun. reflexivity.
Qed.

Lemma synthesize_run (st : AgentState) (h : list event) :
  exists reply,
    run env (synthesize_report st) h =
      (h ++ [Llm (final_prompt (reports_text_of (context_reports st))) reply],
       Done [U_final_report (strip reply)]).
Proof.
  unfold synthesize_report. eexists. cbv zeta. do 2 run_step. reflexivity.
Qed.

(** The compiled graph is the three nodes in a row. *)
Lemma app_ainvoke (s0 : AgentState) :
  graph_ainvoke app s0 =
    (enter "get_trends" s0 ;;
     u1 <- analyze_and_get_trends s0 ;;
     let s1 := merge s0 u1 in
     enter "research_context" s1 ;;
     u2 <- research_trends_context s1 ;;
     let s2 := merge s1 u2 in
     enter "synthesize" s2 ;;
     u3 <- synthesize_report s2 ;;
     Ret (merge s2 u3)).
Proof. reflexivity. Qed.

Lemma graph_run (s0 : AgentState) (h : list event) :
  trends s0 = [] -> context_reports s0 = [] -> final_report s0 = [] ->
  exists a : Answers,
    List.length (research_answers a) = List.length (trends_after a) /\
    let ts := trends_after a in
    let rs := reports_of (research_answers a) in
    run env (graph_ainvoke app s0) h =
      (h ++ [Entered "get_trends" s0]
         ++ get_trends_events (query s0) (country_reply a) (trends_found a)
              (trends_reply a)
         ++ [Entered "research_context" (mkState (query s0) ts [] [])]
         ++ research_all ts (research_answers a)
         ++ [Entered "synthesize" (mkState (query s0) ts rs []);
             Llm (final_prompt (reports_text_of rs)) (final_reply a)],
       Done (mkState (query s0) ts rs (strip (final_reply a)))).
Proof.
  destruct s0 as [q ts0 rs0 f0].
  cbn [query trends context_reports final_report]. intros -> -> ->.
  rewrite app_ainvoke. run_step.
  rewrite run_bind.
  match goal with
  | |- context [run env (analyze_and_get_trends ?s) ?h'] =>
      destruct (analyze_run s h') as (r1 & found & r2 & Hrun1)
  end.
  rewrite Hrun1. cbv beta iota zeta.
  cbn [merge fold_left apply_item query trends context_reports final_report].
  run_step.
  rewrite run_bind.
  match goal with
  | |- context [run env (research_trends_context ?s) ?h'] =>
      destruct (research_run s h') as (answers & Hlen & Hrun2)
  end.
  rewrite Hrun2. cbv beta iota zeta.
  cbn [merge fold_left apply_item query trends context_reports final_report]
    in Hlen |- *.
  run_step.
  rewrite run_bind.
  match goal with
  | |- context [run env (synthesize_report ?s) ?h'] =>
      destruct (synthesize_run s h') as (r3 & Hrun3)
  end.
  rewrite Hrun3. cbv beta iota zeta.
  cbn [merge fold_left apply_item query trends context_reports final_report].
  exists (mkAnswers r1 found r2 answers r3).
  split; [exact Hlen|].
  cbn [country_reply trends_found trends_reply research_answers final_reply
       trends_after].
  rewrite run_Ret, <- !app_assoc. reflexivity.
Qed.

(** The handler prints, runs the graph, and yields the report of the
    state the graph returns. *)
Lemma handler_graph (input : Message) (h : list event) :
  let q := get_message_text input in
  run env (langgraph_trends_agent input) h =
    match run env (graph_ainvoke app (initial_state q))
              (h ++ [Printed (receiving_line q)]) with
    | (h', Done result) =>
        (h' ++ [Yielded (mkAgentMessage (final_report result))], Done tt)
    | (h', Raised exn) => (h', Raised exn)
    end.
Proof.
  unfold langgraph_trends_agent. cbv zeta. run_step. rewrite run_bind.
  destruct (run env (graph_ainvoke app _) _) as [h' [result|exn]];
    reflexivity.
Qed.

(** One request, from the inbound message to the outbound one. *)
Lemma handler_run (input : Message) (h : list event) :
  exists a : Answers,
    List.length (research_answers a) = List.length (trends_after a) /\
    run env (langgraph_trends_agent input) h =
      (h ++ request_events (get_message_text input) a, Done tt).
Proof.
  unfold langgraph_trends_agent. cbv zeta. run_step. rewrite run_bind.
  match goal with
  | |- context [run env (graph_ainvoke app ?s) ?h'] =>
      destruct (graph_run s h' eq_refl eq_refl eq_refl)
        as (a & Hlen & Hrun)
  end.
  exists a. split; [exact Hlen|].
  cbv zeta in Hrun. rewrite Hrun. cbv beta iota.
  rewrite run_yield. unfold request_events.
  cbn [initial_state query final_report].
  rewrite <- !app_assoc. reflexivity.
Qed.

End RunFacts.

(** ** Facts on traces *)

Section TraceFacts.
Context `{UnicodeData}.

Lemma llm_calls_app (a b : list event) :
  llm_calls (a ++ b) = llm_calls a ++ llm_calls b.
Proof. apply flat_map_app. Qed.

Lemma searches_app (a b : list event) :
  searches (a ++ b) = searches a ++ searches b.
Proof. apply flat_map_app. Qed.

Lemma yielded_app (a b : list event) :
  yielded (a ++ b) = yielded a ++ yielded b.
Proof. apply flat_map_app. Qed.

Lemma entered_app (a b : list event) :
  entered (a ++ b) = entered a ++ entered b.
Proof. apply flat_map_app. Qed.

Lemma research_all_cons (trend : str) (rest : list str)
    (a : list dict * str) (answers : list (list dict * str)) :
  research_all (trend :: rest) (a :: answers) =
    research_events trend a ++ research_all rest answers.
Proof. reflexivity. Qed.

Lemma entered_research_all (todo : list str) (answers : list (list dict * str)) :
  entered (research_all todo answers) = [].
Proof.
  revert answers. induction todo as [|t todo IH]; intros [|a answers];
    try reflexivity.
  rewrite research_all_cons, entered_app, IH. reflexivity.
Qed.

Lemma yielded_research_all (todo : list str) (answers : list (list dict * str)) :
  yielded (research_all todo answers) = [].
Proof.
  revert answers. induction todo as [|t todo IH]; intros [|a answers];
    try reflexivity.
  rewrite research_all_cons, yielded_app, IH. reflexivity.
Qed.

Lemma searches_research_all (todo : list str) :
  forall answers : list (list dict * str),
  List.length answers = List.length todo ->
  searches (research_all todo answers) =
    List.map (fun t => (context_query t, 3)) todo.
Proof.
  induction todo as [|t todo IH]; intros [|a answers] Hlen;
    try discriminate; [reflexivity|].
  rewrite research_all_cons, searches_app, IH by (simpl in Hlen; lia).
  reflexivity.
Qed.

(** Report [i] is the reply to the prompt made from trend [i] and from what
    the search on trend [i] found. *)
Lemma research_all_aligned (todo : list str) :
  forall answers : list (list dict * str),
  List.length answers = List.length todo ->
  Forall2 (fun trend report =>
             exists found reply,
               In (Search (context_query trend) 3 found)
                  (research_all todo answers) /\
               In (Llm (context_prompt trend found) reply)
                  (research_all todo answers) /\
               report = strip reply)
          todo (reports_of answers).
Proof.
  induction todo as [|t todo IH]; intros [|[found reply] answers] Hlen;
    try discriminate; [constructor|].
  simpl reports_of. constructor.
  - exists found, reply. rewrite research_all_cons.
    unfold research_events. simpl. tauto.
  - eapply Forall2_impl; [|apply IH; simpl in Hlen; lia].
    intros trend report (f & r & Hs & Hl & ->).
    exists f, r. rewrite research_all_cons.
    repeat split; apply in_or_app; now right.
Qed.

Lemma entered_request (q : str) (a : Answers) :
  entered (request_events q a) =
    [ ("get_trends"%string, initial_state q);
      ("research_context"%string, mkState q (trends_after a) [] []);
      ("synthesize"%string,
        mkState q (trends_after a) (reports_of (research_answers a)) []) ].
Proof.
  unfold request_events. cbv zeta.
  rewrite !entered_app, entered_research_all. reflexivity.
Qed.

Lemma yielded_request (q : str) (a : Answers) :
  yielded (request_events q a) = [mkAgentMessage (strip (final_reply a))].
Proof.
  unfold request_events. cbv zeta.
  rewrite !yielded_app, yielded_research_all. reflexivity.
Qed.

Lemma llm_calls_request (q : str) (a : Answers) :
  let country := country_of (country_reply a) in
  llm_calls (request_events q a) =
    (country_prompt q, country_reply a)
    :: (extract_prompt (url_of country) (results_text_of (trends_found a)),
        trends_reply a)
    :: llm_calls (research_all (trends_after a) (research_answers a))
    ++ [(final_prompt (reports_text_of (reports_of (research_answers a))),
         final_reply a)].
Proof.
  unfold request_events. cbv zeta. rewrite !llm_calls_app. reflexivity.
Qed.

End TraceFacts.

(** ** Properties of the specification *)

Section Properties.
Context `{UnicodeData} `{A2A}.

(** C1.  Whatever the model replies, the trend list that node [get_trends]
    returns (the reply split on commas, each piece stripped, empty pieces
    dropped, the first five kept) has at most five entries, and every
    entry is still non-empty once stripped.  The first two parts hold for
    every reply string; the third says that the node returns exactly this
    list, computed from the last reply it received. *)
Theorem trends_at_most_five_nonempty (content : str) :
  let ts := firstn 5 (trends_of content) in
  (List.length ts <= 5)%nat
  /\ Forall (fun t => strip t <> []) ts
  /\ forall (env : Env) (st : AgentState) (h : list event),
       exists tr prompt reply,
         run env (analyze_and_get_trends st) h =
           (h ++ tr, Done [U_trends (firstn 5 (trends_of reply))])
         /\ last tr (Printed []) = Llm prompt reply.
Proof.
  cbv zeta. split; [apply firstn_le_length|]. split.
  - apply Forall_forall. intros t Ht. apply firstn_In in Ht.
    pose proof (trends_of_entries content) as Hall.
    rewrite Forall_forall in Hall.
    destruct (Hall t Ht) as (_ & Htrim & Hne).
    now rewrite trimmed_strip.
  - intros env st h.
    destruct (analyze_run env st h) as (r1 & found & r2 & Hrun).
    eexists. exists (extract_prompt (url_of (country_of r1))
                       (results_text_of found)), r2.
    split; [exact Hrun | reflexivity].
Qed.

(** C2.  On every state, node [research_context] returns as many reports
    as there are trends, in the same order: report number i is the
    stripped reply to the prompt built from trend number i and from what
    the search on trend number i found. *)
Theorem context_reports_aligned (env : Env) (st : AgentState)
    (h : list event) :
  exists tr reports,
    run env (research_trends_context st) h =
      (h ++ tr, Done [U_context_reports reports])
    /\ List.length reports = List.length (trends st)
    /\ Forall2 (fun trend report =>
                  exists found reply,
                    In (Search (context_query trend) 3 found) tr
                    /\ In (Llm (context_prompt trend found) reply) tr
                    /\ report = strip reply)
               (trends st) reports.
Proof.
  destruct (research_run env st h) as (answers & Hlen & Hrun).
  exists (research_all (trends st) answers), (reports_of answers).
  split; [exact Hrun|]. split.
  - unfold reports_of. now rewrite length_map.
  - now apply research_all_aligned.
Qed.

(** C3.  For every inbound message the handler starts the graph on the
    state made of the extracted query, no trends, no reports and an empty
    final report; the graph enters [get_trends], [research_context] and
    [synthesize] once each, in that order, each node having exactly one way
    out; and the handler yields one message, whose text is the
    [final_report] of the state the graph returned. *)
Theorem handler_one_message (env : Env) (input : Message) (h : list event) :
  let q := get_message_text input in
  let h0 := h ++ [Printed (receiving_line q)] in
  exists tr result ts rs,
    run env (graph_ainvoke app (initial_state q)) h0 = (h0 ++ tr, Done result)
    /\ run env (langgraph_trends_agent input) h =
         (h0 ++ tr ++ [Yielded (mkAgentMessage (final_report result))],
          Done tt)
    /\ entered tr =
         [ ("get_trends"%string, mkState q [] [] []);
           ("research_context"%string, mkState q ts [] []);
           ("synthesize"%string, mkState q ts rs []) ]
    /\ yielded (tr ++ [Yielded (mkAgentMessage (final_report result))]) =
         [mkAgentMessage (final_report result)]
    /\ entry_point app = Some "get_trends"%string
    /\ edges app =
         [ ("get_trends"%string, To "research_context");
           ("research_context"%string, To "synthesize");
           ("synthesize"%string, END) ].
Proof.
  cbv zeta. rewrite handler_graph. cbv zeta.
  destruct (graph_run env (initial_state (get_message_text input))
              (h ++ [Printed (receiving_line (get_message_text input))])
              eq_refl eq_refl eq_refl) as (a & Hlen & Hrun).
  cbv zeta in Hrun. rewrite Hrun.
  eexists. eexists. exists (trends_after a), (reports_of (research_answers a)).
  split; [reflexivity|]. split.
  - rewrite <- !app_assoc. reflexivity.
  - cbn [initial_state query].
    rewrite !entered_app, !yielded_app, entered_research_all,
      yielded_research_all.
    repeat split.
Qed.

(** C4.  The target URL built from a country token is the base URL
    https://trends24.in/ for the token global, and the base URL, the token
    and a slash for any other token; the token japan gives
    https://trends24.in/japan/. *)
Theorem url_of_token (country : str) :
  (country = lit "global" -> url_of country = lit "https://trends24.in/")
  /\ (country <> lit "global" ->
      url_of country = lit "https://trends24.in/" ++ country ++ lit "/")
  /\ url_of (lit "japan") = lit "https://trends24.in/japan/".
Proof.
  unfold url_of, base_url. repeat split.
  - intros ->. reflexivity.
  - intros Hne. destruct (str_eqb country (lit "global")) eqn:E.
    + apply str_eqb_eq in E. contradiction.
    + reflexivity.
Qed.

(** C5, as the code has it.  Node [get_trends] reads the search results
    through their snippets alone (the empty string standing for a missing
    snippet), joined by newlines: two environments whose model answers
    alike and whose searches find results with the same snippets are sent
    the same prompts by this node.  Node [research_context] instead puts
    the printed form of the whole result list, every key and value, into
    its prompt. *)
Theorem extract_prompt_reads_snippets_only (env env' : Env)
    (st : AgentState) (h : list event) :
  (forall h p, llm_content env h p = llm_content env' h p) ->
  (forall h q n,
      snippets (search_found env h q n) = snippets (search_found env' h q n)) ->
  List.map fst (llm_calls (fst (run env (analyze_and_get_trends st) h))) =
  List.map fst (llm_calls (fst (run env' (analyze_and_get_trends st) h)))
  /\ (forall found,
        results_text_of found =
          join [NL] (List.map (fun r => get r (lit "snippet") []) found))
  /\ (forall trend found,
        context_prompt trend found =
          lit "Explain briefly why '" ++ trend
          ++ lit "' is trending. Use the search results below. "
          ++ lit "You MUST include at least one source URL from the results. "
          ++ lit "Format: Friendly explanation followed by [Source: URL]"
          ++ [NL; NL] ++ lit "Search Results:" ++ [NL] ++ repr_list found).
Proof.
  intros Hllm Hsearch. split; [|split; reflexivity].
  rewrite !analyze_run_with. cbv zeta. cbn [fst].
  rewrite !llm_calls_app, !map_app. f_equal.
  unfold get_trends_events, results_text_of.
  cbn [llm_calls flat_map app List.map fst].
  rewrite <- !Hllm, <- !Hsearch. reflexivity.
Qed.

(** C6, as the code has it.  A country token that is lowercase, holds no
    single or double quote and has no whitespace at either end is returned
    unchanged by the normalization. *)
Theorem country_of_fixed (t : str) :
  trimmed t = true -> lower t = t ->
  has QUOTE t = false -> has DQUOTE t = false ->
  country_of t = t.
Proof.
  intros Htrim Hlow Hq Hdq. unfold country_of.
  rewrite (trimmed_strip t Htrim), Hlow.
  rewrite (replace_absent QUOTE) by now apply has_false.
  apply replace_absent. now apply has_false.
Qed.

(** C7.  When the reply to the extraction prompt (the second model call of
    a request) has no comma and is not blank, the state reaches
    [research_context] with exactly one trend and [synthesize] with exactly
    one report, the final prompt is still sent, and the handler ends
    normally having yielded one message, the stripped reply to the final
    prompt. *)
Theorem single_phrase_degrades (env : Env) (input : Message)
    (prompt reply : str) :
  let q := get_message_text input in
  let r := run env (langgraph_trends_agent input) [] in
  nth_error (llm_calls (fst r)) 1 = Some (prompt, reply) ->
  has COMMA reply = false ->
  strip reply <> [] ->
  exists report final_res,
    entered (fst r) =
      [ ("get_trends"%string, initial_state q);
        ("research_context"%string, mkState q [strip reply] [] []);
        ("synthesize"%string, mkState q [strip reply] [report] []) ]
    /\ In (Llm (final_prompt (reports_text_of [report])) final_res) (fst r)
    /\ yielded (fst r) = [mkAgentMessage (strip final_res)]
    /\ snd r = Done tt
    /\ exists country found,
         prompt = extract_prompt (url_of country) (results_text_of found).
Proof.
  cbv zeta.
  destruct (handler_run env input []) as (a & Hlen & Hrun).
  rewrite app_nil_l in Hrun. rewrite Hrun. cbn [fst snd].
  rewrite llm_calls_request, entered_request, yielded_request.
  cbv zeta. cbn [nth_error]. intros E Hc Hs.
  injection E as Hp Hr.
  assert (Hts : trends_after a = [strip reply]).
  { unfold trends_after. rewrite Hr, trends_of_single by assumption.
    reflexivity. }
  rewrite Hts in Hlen |- *.
  destruct (research_answers a) as [|[found r1] [|b rest]] eqn:Ha;
    try discriminate.
  exists (strip r1), (final_reply a). repeat split.
  - unfold request_events. cbv zeta. rewrite Ha.
    apply in_or_app; right. apply in_or_app; right.
    apply in_or_app; right. apply in_or_app; right.
    simpl. tauto.
  - eauto.
Qed.

(** C8, as the code has it.  Node [get_trends] issues exactly one search,
    asking for 5 results, whose query is the fixed text
    site:trends24.in top trending topics and a space, followed by the
    country token unless the token is global, in which case nothing
    follows.  Node [research_context] issues exactly one search per trend,
    in the order of the trends, asking for 3 results with the query
    why is TREND trending news today source article. *)
Theorem searches_issued (env : Env) (st : AgentState) (h : list event) :
  (exists tr reply1 u,
      run env (analyze_and_get_trends st) h = (h ++ tr, Done u)
      /\ hd_error (llm_calls tr) = Some (country_prompt (query st), reply1)
      /\ searches tr =
           [ (lit "site:trends24.in top trending topics "
              ++ (if str_eqb (country_of reply1) (lit "global")
                  then [] else country_of reply1),
              5) ])
  /\ (exists tr u,
        run env (research_trends_context st) h = (h ++ tr, Done u)
        /\ searches tr =
             List.map
               (fun t =>
                  (lit "why is " ++ t
                   ++ lit " trending news today source article", 3))
               (trends st)).
Proof.
  split.
  - destruct (analyze_run env st h) as (r1 & found & r2 & Hrun).
    do 3 eexists. split; [exact Hrun|].
    split; [reflexivity|].
    unfold get_trends_events, search_query_of. cbn [searches flat_map app].
    destruct (str_eqb (country_of r1) (lit "global")); reflexivity.
  - destruct (research_run env st h) as (answers & Hlen & Hrun).
    do 2 eexists. split; [exact Hrun|].
    now apply searches_research_all.
Qed.

(** C9.  When the extraction reply yields no trend, the request still runs
    to its end: [research_context] is entered and left without a search, a
    model call or a console line and hands an empty report list to
    [synthesize], which sends the final prompt built on the empty text;
    the handler ends normally having yielded one message. *)
Theorem empty_trends_still_reports (env : Env) (input : Message)
    (prompt reply : str) :
  let q := get_message_text input in
  let r := run env (langgraph_trends_agent input) [] in
  nth_error (llm_calls (fst r)) 1 = Some (prompt, reply) ->
  firstn 5 (trends_of reply) = [] ->
  exists reply1 found final_res,
    fst r =
      [ Printed (receiving_line q);
        Entered "get_trends" (initial_state q) ]
      ++ get_trends_events q reply1 found reply
      ++ [ Entered "research_context" (mkState q [] [] []);
           Entered "synthesize" (mkState q [] [] []);
           Llm (final_prompt (reports_text_of [])) final_res;
           Yielded (mkAgentMessage (strip final_res)) ]
    /\ reports_text_of [] = []
    /\ yielded (fst r) = [mkAgentMessage (strip final_res)]
    /\ snd r = Done tt.
Proof.
  cbv zeta.
  destruct (handler_run env input []) as (a & Hlen & Hrun).
  rewrite app_nil_l in Hrun. rewrite Hrun. cbn [fst snd].
  rewrite llm_calls_request, yielded_request.
  cbv zeta. cbn [nth_error]. intros E Hts.
  injection E as Hp Hr.
  assert (Hta : trends_after a = []) by (unfold trends_after; congruence).
  rewrite Hta in Hlen.
  destruct (research_answers a) as [|b rest] eqn:Ha; [|discriminate].
  exists (country_reply a), (trends_found a), (final_reply a).
  repeat split.
  unfold request_events. cbv zeta. rewrite Hta, Ha, Hr. reflexivity.
Qed.

(** C10.  The trends that [get_trends] stores hold no comma and have no
    whitespace at either end, and they are the trends of the state that
    enters [research_context], of the state that enters [synthesize] and
    of the state the graph returns. *)
Theorem trends_clean_and_kept (env : Env) (q : str) (h : list event) :
  exists tr result ts,
    run env (graph_ainvoke app (initial_state q)) h = (h ++ tr, Done result)
    /\ List.map (fun e => (fst e, trends (snd e))) (entered tr) =
         [ ("get_trends"%string, []);
           ("research_context"%string, ts);
           ("synthesize"%string, ts) ]
    /\ trends result = ts
    /\ Forall (fun t => has COMMA t = false /\ trimmed t = true) ts.
Proof.
  destruct (graph_run env (initial_state q) h eq_refl eq_refl eq_refl)
    as (a & Hlen & Hrun).
  cbv zeta in Hrun. do 2 eexists. exists (trends_after a).
  split; [exact Hrun|]. split; [|split; [reflexivity|]].
  - rewrite !entered_app, entered_research_all. reflexivity.
  - apply Forall_forall. intros t Ht. apply firstn_In in Ht.
    pose proof (trends_of_entries (trends_reply a)) as Hall.
    rewrite Forall_forall in Hall.
    destruct (Hall t Ht) as (Hc & Htrim & _). auto.
Qed.

End Properties.

(** ** Further facts on the text functions *)

Section MoreTextFacts.

Lemma has_app (c : N) (a b : str) : has c (a ++ b) = has c a || has c b.
Proof. apply existsb_app. Qed.

Lemma lstrip_spaces_app (l s : str) :
  forallb isspace l = true -> lstrip (l ++ s) = lstrip s.
Proof.
  induction l as [|c l IH]; simpl; [reflexivity|].
  intros Hl. apply andb_true_iff in Hl as [Hc Hl]. rewrite Hc. auto.
Qed.

Lemma rstrip_spaces (r : str) : forallb isspace r = true -> rstrip r = [].
Proof.
  induction r as [|c r IH]; [reflexivity|]. simpl forallb.
  intros Hr. apply andb_true_iff in Hr as [Hc Hr].
  rewrite rstrip_cons, IH, Hc by assumption. reflexivity.
Qed.

Lemma rstrip_app_spaces (s r : str) :
  forallb isspace r = true -> rstrip (s ++ r) = rstrip s.
Proof.
  intros Hr. induction s as [|c s IH].
  - simpl. now apply rstrip_spaces.
  - change ((c :: s) ++ r) with (c :: (s ++ r)).
    rewrite !rstrip_cons, IH. reflexivity.
Qed.

Lemma strip_blank (s : str) : forallb isspace s = true -> strip s = [].
Proof.
  intros Hs. unfold strip.
  rewrite <- (app_nil_r s), lstrip_spaces_app by assumption. reflexivity.
Qed.

(** Whitespace around a trimmed text is what [strip] removes. *)
Lemma strip_padded (l t r : str) :
  forallb isspace l = true -> forallb isspace r = true ->
  trimmed t = true -> strip (l ++ t ++ r) = t.
Proof.
  intros Hl Hr Ht. unfold strip. rewrite lstrip_spaces_app by assumption.
  destruct t as [|c t].
  - simpl app. fold (strip r). now apply strip_blank.
  - pose proof Ht as Ht'. unfold trimmed in Ht'.
    apply andb_true_iff in Ht' as [Hc Hlast].
    apply negb_true_iff in Hc, Hlast.
    rewrite lstrip_fixed
      by (intros a x E; simpl in E; injection E as <- _; exact Hc).
    rewrite rstrip_app_spaces by assumption.
    apply (rstrip_fixed _ c); [discriminate | exact Hlast].
Qed.

Lemma split_app_sep (sep : N) (p s : str) :
  ~ In sep p -> split sep (p ++ sep :: s) = p :: split sep s.
Proof.
  induction p as [|c p IH]; intros Hn.
  - simpl. now rewrite N.eqb_refl.
  - simpl. destruct (c =? sep) eqn:Hc.
    + apply N.eqb_eq in Hc. simpl in Hn. tauto.
    + rewrite IH by (simpl in Hn; tauto). reflexivity.
Qed.

(** Splitting what was joined on the separator gives the pieces back. *)
Lemma split_join (sep : N) (pieces : list str) :
  pieces <> [] -> Forall (fun p => ~ In sep p) pieces ->
  split sep (join [sep] pieces) = pieces.
Proof.
  induction pieces as [|p rest IH]; [congruence|].
  intros _ Hall. inversion Hall as [|? ? Hp Hrest]; subst.
  destruct rest as [|p' rest].
  - simpl. now apply split_single.
  - change (join [sep] (p :: p' :: rest))
      with (p ++ sep :: join [sep] (p' :: rest)).
    rewrite split_app_sep by assumption.
    rewrite IH by (assumption || discriminate). reflexivity.
Qed.

Lemma split_In (sep : N) (s p : str) (c : N) :
  In p (split sep s) -> In c p -> In c s.
Proof.
  revert p. induction s as [|a s IH]; intros p; simpl.
  - intros [<-|[]] [].
  - destruct (a =? sep).
    + intros [<-|Hp]; [intros [] | intros Hc; right; eauto].
    + destruct (split sep s) as [|q qs] eqn:E.
      * intros [<-|[]] [<-|[]]. now left.
      * intros [<-|Hp] Hc.
        -- destruct Hc as [<-|Hc]; [now left | right].
           apply (IH q); [now left | exact Hc].
        -- right. apply (IH p); [now right | exact Hc].
Qed.

Lemma isspace_forallb_In (s : str) (c : N) :
  forallb isspace s = true -> In c s -> isspace c = true.
Proof.
  intros Hs Hin. rewrite forallb_forall in Hs. auto.
Qed.

(** The trend list of a reply that joins padded labels with commas. *)
Lemma trends_of_padded_labels (pieces ts : list str) :
  Forall2 padded_label pieces ts ->
  trends_of (join [COMMA] pieces) = ts.
Proof.
  intros Hall. unfold trends_of.
  destruct pieces as [|p0 rest0] eqn:Ep.
  { inversion Hall. reflexivity. }
  rewrite <- Ep in *. rewrite split_join.
  - clear Ep p0 rest0.
    induction Hall as [|piece t pieces ts (l & r & -> & Hl & Hr & _ & Ht & Hne) _ IH];
      [reflexivity|].
    pose proof (strip_padded l t r Hl Hr Ht) as Hstrip.
    remember (l ++ t ++ r) as piece eqn:Epiece. clear Epiece.
    cbn [filter]. rewrite Hstrip.
    destruct t as [|c t]; [congruence|]. cbn [truthy List.map].
    now rewrite Hstrip, IH.
  - rewrite Ep. discriminate.
  - clear Ep. induction Hall as [|piece t pieces ts (l & r & -> & Hl & Hr & Hc & _) _ IH];
      constructor; [|exact IH].
    intros Hin. apply has_false in Hc.
    apply in_app_or in Hin as [Hin|Hin];
      [|apply in_app_or in Hin as [Hin|Hin]]; [|tauto|].
    + now pose proof (isspace_forallb_In l COMMA Hl Hin).
    + now pose proof (isspace_forallb_In r COMMA Hr Hin).
Qed.

End MoreTextFacts.

(** ** Further properties: the text handling of [get_trends] *)

Section ParsingProperties.
Context `{UnicodeData}.

(** X1.  A reply that lists labels separated by commas, each label padded
    with any whitespace, is read back as exactly these labels, in order,
    provided each label is non-empty, holds no comma and has no whitespace
    at its own ends; with five labels or fewer, this is the list the node
    returns. *)
Theorem labels_read_back (pieces ts : list str) :
  Forall2 padded_label pieces ts ->
  trends_of (join [COMMA] pieces) = ts
  /\ ((List.length ts <= 5)%nat ->
      firstn 5 (trends_of (join [COMMA] pieces)) = ts).
Proof.
  intros Hall. rewrite (trends_of_padded_labels pieces ts Hall).
  split; [reflexivity|]. intros Hlen. now apply firstn_all2.
Qed.

(** X2.  A reply made of nothing but commas and whitespace (the empty reply
    included) gives no trend at all. *)
Theorem blank_reply_no_trends (content : str) :
  forallb (fun c => isspace c || (c =? COMMA)) content = true ->
  trends_of content = [].
Proof.
  intros Hall. unfold trends_of.
  assert (Hnone : forall p, In p (split COMMA content) ->
                            truthy (strip p) = false).
  { intros p Hp. rewrite strip_blank; [reflexivity|].
    apply forallb_forall. intros c Hc.
    pose proof (split_no_sep COMMA content) as Hsep.
    rewrite Forall_forall in Hsep. specialize (Hsep p Hp).
    rewrite forallb_forall in Hall.
    specialize (Hall c (split_In COMMA content p c Hp Hc)).
    apply orb_true_iff in Hall as [Hs|Heq]; [exact Hs|].
    apply N.eqb_eq in Heq. subst c. contradiction. }
  induction (split COMMA content) as [|p ps IH]; [reflexivity|].
  simpl. rewrite (Hnone p) by now left.
  apply IH. intros q Hq. apply Hnone. now right.
Qed.

(** X3.  Whatever the model replies for the country, neither the target URL
    nor the search query built from it holds a single or double quote. *)
Theorem no_quote_in_url_or_query (content : str) :
  let country := country_of content in
  has QUOTE (url_of country) = false
  /\ has DQUOTE (url_of country) = false
  /\ has QUOTE (search_query_of country) = false
  /\ has DQUOTE (search_query_of country) = false.
Proof.
  cbv zeta. destruct (country_of_no_quotes content) as [Hq Hdq].
  unfold url_of, search_query_of, base_url.
  destruct (negb (str_eqb (country_of content) (lit "global")));
    rewrite ?has_app, ?Hq, ?Hdq; repeat split; reflexivity.
Qed.

(** X4.  Two different country tokens never get the same target URL; in
    particular only the token global gets the base URL. *)
Theorem url_of_distinct (c1 c2 : str) :
  c1 <> c2 -> url_of c1 <> url_of c2.
Proof.
  intros Hne E. apply Hne. clear Hne. unfold url_of in E.
  assert (Hbase : forall c : str, base_url ++ c ++ lit "/" <> base_url).
  { intros c Hc. rewrite <- (app_nil_r base_url) in Hc at 2.
    apply app_inv_head in Hc. now destruct c. }
  destruct (str_eqb c1 (lit "global")) eqn:E1;
    destruct (str_eqb c2 (lit "global")) eqn:E2; cbn [negb] in E.
  - apply str_eqb_eq in E1, E2. congruence.
  - symmetry in E. now apply Hbase in E.
  - now apply Hbase in E.
  - apply app_inv_head in E. now apply app_inv_tail in E.
Qed.

(** X5.  Search results that carry no snippet are not an error: each one
    counts as an empty line, so the results text is only the newlines
    between them. *)
Theorem results_text_without_snippets (found : list dict) :
  Forall (fun r => Forall (fun kv => fst kv <> lit "snippet") r) found ->
  results_text_of found = repeat NL (List.length found - 1).
Proof.
  intros Hall. unfold results_text_of.
  assert (Hs : snippets found = repeat [] (List.length found)).
  { unfold snippets. induction Hall as [|r rest Hr _ IH]; [reflexivity|].
    simpl. rewrite IH. f_equal.
    induction Hr as [|[k v] r' Hk _ IHr]; [reflexivity|].
    simpl in Hk |- *. destruct (str_eqb k (lit "snippet")) eqn:E.
    - apply str_eqb_eq in E. contradiction.
    - exact IHr. }
  rewrite Hs. clear.
  assert (Hjoin : forall n, join [NL] (repeat [] (S n)) = repeat NL n).
  { induction n as [|n IH]; [reflexivity|].
    change (join [NL] (repeat [] (S (S n))))
      with ([] ++ [NL] ++ join [NL] (repeat [] (S n))).
    now rewrite IH. }
  destruct (List.length found) as [|n]; [reflexivity|].
  rewrite Hjoin. f_equal. lia.
Qed.

End ParsingProperties.

(** ** Further facts on traces and on console lines *)

Section MoreTraceFacts.
Context `{UnicodeData} `{A2A}.

Lemma printed_app (a b : list event) :
  printed (a ++ b) = printed a ++ printed b.
Proof. apply flat_map_app. Qed.

Lemma research_all_counts (todo : list str) :
  forall answers : list (list dict * str),
  List.length answers = List.length todo ->
  List.length (llm_calls (research_all todo answers)) = List.length todo
  /\ List.length (printed (research_all todo answers)) = List.length todo.
Proof.
  induction todo as [|t todo IH]; intros [|a answers] Hlen;
    try discriminate; [split; reflexivity|].
  destruct (IH answers) as [Hl Hp]; [simpl in Hlen; lia|].
  rewrite research_all_cons, llm_calls_app, printed_app, !length_app, Hl, Hp.
  split; reflexivity.
Qed.

Lemma noprint_app (a b : list event) :
  noprint (a ++ b) = noprint a ++ noprint b.
Proof. apply filter_app. Qed.

Lemma same_calls_refl {A : Type} (p : prog A) : same_calls p p.
Proof. induction p; constructor; auto. Qed.

Lemma same_calls_bind {A B : Type} (p p' : prog A) (f f' : A -> prog B) :
  same_calls p p' -> (forall a, same_calls (f a) (f' a)) ->
  same_calls (bind p f) (bind p' f').
Proof.
  intros Hp Hf. induction Hp; simpl; try constructor; auto.
Qed.

(** Under an environment that does not read the console, two programs that
    differ in their console lines only make the same calls, get the same
    answers and end alike. *)
Lemma same_calls_run {A : Type} (env : Env) (p p' : prog A) :
  print_blind env -> same_calls p p' ->
  forall h h', noprint h = noprint h' ->
    noprint (fst (run env p h)) = noprint (fst (run env p' h'))
    /\ snd (run env p h) = snd (run env p' h').
Proof.
  intros Hblind Hp.
  induction Hp as [a | exn | prompt k k' _ IH | q n k k' _ IH
                   | line line' k k' _ IH | m k k' _ IH | node st k k' _ IH];
    intros h h' Hh; simpl.
  - auto.
  - auto.
  - destruct (Hblind h h' Hh) as [Hllm _]. rewrite (Hllm prompt).
    apply IH. rewrite !noprint_app. now rewrite Hh.
  - destruct (Hblind h h' Hh) as [_ Hs]. rewrite (Hs q n).
    apply IH. rewrite !noprint_app. now rewrite Hh.
  - apply IH. rewrite !noprint_app. simpl. now rewrite !app_nil_r.
  - apply IH. rewrite !noprint_app. now rewrite Hh.
  - apply IH. rewrite !noprint_app. now rewrite Hh.
Qed.

Lemma beeai_analyze_same (st : AgentState) :
  same_calls (BeeAI.analyze_and_get_trends st) (analyze_and_get_trends st).
Proof.
  unfold BeeAI.analyze_and_get_trends, analyze_and_get_trends.
  cbn [bind ainvoke print results].
  repeat (constructor; intros).
Qed.

Lemma beeai_research_loop_same (todo : list str) :
  forall reports,
    same_calls (BeeAI.research_loop todo reports) (research_loop todo reports).
Proof.
  induction todo as [|t todo IH]; intros reports;
    cbn [BeeAI.research_loop research_loop bind ainvoke print results].
  - constructor.
  - repeat (constructor; intros). apply IH.
Qed.

Lemma beeai_research_same (st : AgentState) :
  same_calls (BeeAI.research_trends_context st) (research_trends_context st).
Proof.
  apply same_calls_bind; [apply beeai_research_loop_same|].
  intros a. constructor.
Qed.

Lemma beeai_app_ainvoke (s0 : AgentState) :
  graph_ainvoke BeeAI.app s0 =
    (enter "get_trends" s0 ;;
     u1 <- BeeAI.analyze_and_get_trends s0 ;;
     let s1 := merge s0 u1 in
     enter "research_context" s1 ;;
     u2 <- BeeAI.research_trends_context s1 ;;
     let s2 := merge s1 u2 in
     enter "synthesize" s2 ;;
     u3 <- BeeAI.synthesize_report s2 ;;
     Ret (merge s2 u3)).
Proof. reflexivity. Qed.

Lemma beeai_graph_same (s0 : AgentState) :
  same_calls (graph_ainvoke BeeAI.app s0) (graph_ainvoke app s0).
Proof.
  rewrite beeai_app_ainvoke, app_ainvoke.
  apply same_calls_bind; [apply same_calls_refl|]. intros _.
  apply same_calls_bind; [apply beeai_analyze_same|]. intros u1. cbv zeta.
  apply same_calls_bind; [apply same_calls_refl|]. intros _.
  apply same_calls_bind; [apply beeai_research_same|]. intros u2.
  apply same_calls_bind; [apply same_calls_refl|]. intros _.
  apply same_calls_refl.
Qed.

Lemma beeai_handler_same (input : Message) :
  same_calls (BeeAI.langgraph_trends_agent input)
             (langgraph_trends_agent input).
Proof.
  unfold BeeAI.langgraph_trends_agent, langgraph_trends_agent. cbv zeta.
  apply same_calls_bind; [repeat constructor|]. intros _.
  apply same_calls_bind; [apply beeai_graph_same|]. intros result.
  apply same_calls_refl.
Qed.

End MoreTraceFacts.

Lemma filter_noprint (f : event -> bool) (h : list event) :
  (forall line, f (Printed line) = false) ->
  filter f (noprint h) = filter f h.
Proof.
  intros Hf. induction h as [|e h IH]; [reflexivity|].
  destruct e; simpl; rewrite ?Hf, IH; reflexivity.
Qed.

Lemma scripted_print_blind (replies : list str) (founds : list (list dict)) :
  print_blind (scripted replies founds).
Proof.
  intros h h' Hh. split; intros; simpl.
  - rewrite <- (filter_noprint is_llm h), <- (filter_noprint is_llm h'), Hh
      by reflexivity. reflexivity.
  - rewrite <- (filter_noprint is_search h), <- (filter_noprint is_search h'), Hh
      by reflexivity. reflexivity.
Qed.

(** ** Further properties: whole requests *)

Section RequestProperties.
Context `{UnicodeData} `{A2A}.

(** X6.  The state that the graph returns for a query keeps that query,
    holds at most five trends and exactly one report per trend, and neither
    a report nor the final report starts or ends with whitespace. *)
Theorem returned_state_invariant (env : Env) (q : str) (h : list event) :
  exists tr result,
    run env (graph_ainvoke app (initial_state q)) h = (h ++ tr, Done result)
    /\ query result = q
    /\ (List.length (trends result) <= 5)%nat
    /\ List.length (context_reports result) = List.length (trends result)
    /\ Forall (fun r => trimmed r = true) (context_reports result)
    /\ trimmed (final_report result) = true.
Proof.
  destruct (graph_run env (initial_state q) h eq_refl eq_refl eq_refl)
    as (a & Hlen & Hrun).
  cbv zeta in Hrun. do 2 eexists. split; [exact Hrun|].
  cbn [query trends context_reports final_report initial_state].
  repeat split.
  - apply firstn_le_length.
  - unfold reports_of. now rewrite length_map.
  - unfold reports_of. apply Forall_map, Forall_forall.
    intros x _. apply strip_trimmed.
  - apply strip_trimmed.
Qed.

(** X7.  A request with n trends (n is at most 5) makes exactly 3 + n model
    calls and 1 + n searches and prints 2 + n console lines: never more
    than 8 model calls and 6 searches. *)
Theorem request_call_budget (env : Env) (input : Message) (h : list event) :
  let q := get_message_text input in
  exists tr ts,
    run env (langgraph_trends_agent input) h = (h ++ tr, Done tt)
    /\ nth_error (entered tr) 1 =
         Some ("research_context"%string, mkState q ts [] [])
    /\ (List.length ts <= 5)%nat
    /\ List.length (llm_calls tr) = (3 + List.length ts)%nat
    /\ List.length (searches tr) = (1 + List.length ts)%nat
    /\ List.length (printed tr) = (2 + List.length ts)%nat.
Proof.
  cbv zeta. destruct (handler_run env input h) as (a & Hlen & Hrun).
  exists (request_events (get_message_text input) a), (trends_after a).
  split; [exact Hrun|].
  destruct (research_all_counts (trends_after a) (research_answers a) Hlen)
    as [Hl Hp].
  rewrite entered_request, llm_calls_request. cbv zeta.
  unfold request_events. cbv zeta.
  rewrite !searches_app, !printed_app,
    (searches_research_all _ _ Hlen), !length_app, length_map, Hp.
  cbn [List.length]. rewrite length_app, Hl.
  repeat split; try (cbn; lia).
  apply firstn_le_length.
Qed.

(** X8.  The text of the message the handler yields never starts or ends
    with whitespace: it is the stripped reply to the final prompt. *)
Theorem reply_text_trimmed (env : Env) (input : Message) (h : list event) :
  exists tr prompt final_res,
    run env (langgraph_trends_agent input) h = (h ++ tr, Done tt)
    /\ last (llm_calls tr) ([], []) = (prompt, final_res)
    /\ yielded tr = [mkAgentMessage (strip final_res)]
    /\ trimmed (strip final_res) = true.
Proof.
  destruct (handler_run env input h) as (a & Hlen & Hrun).
  exists (request_events (get_message_text input) a).
  exists (final_prompt (reports_text_of (reports_of (research_answers a)))).
  exists (final_reply a).
  split; [exact Hrun|]. rewrite llm_calls_request, yielded_request. cbv zeta.
  repeat split; [|apply strip_trimmed].
  rewrite !app_comm_cons. apply last_last.
Qed.

(** X9.  Node [research_context] takes the trends strictly one after the
    other: for each trend, in order, one console line, then one search,
    then one model call whose prompt carries what that search found, and
    nothing else; the reports it returns replace whatever reports the state
    held. *)
Theorem research_stage_in_sequence (env : Env) (st : AgentState)
    (h : list event) :
  exists answers : list (list dict * str),
    List.length answers = List.length (trends st)
    /\ run env (research_trends_context st) h =
         (h ++ flat_map
                 (fun ta =>
                    let trend := fst ta in
                    let found := fst (snd ta) in
                    let reply := snd (snd ta) in
                    [ Printed (investigating_line trend);
                      Search (context_query trend) 3 found;
                      Llm (context_prompt trend found) reply ])
                 (combine (trends st) answers),
          Done [U_context_reports (List.map (fun a => strip (snd a)) answers)])
    /\ context_reports
         (merge st [U_context_reports (List.map (fun a => strip (snd a)) answers)])
       = List.map (fun a => strip (snd a)) answers.
Proof.
  destruct (research_run env st h) as (answers & Hlen & Hrun).
  exists answers. split; [exact Hlen|]. split; [exact Hrun | reflexivity].
Qed.

(** X10.  Node [get_trends] asks the model for the country first, prints
    its console line, searches once with the query made from the country
    token it got, and then sends the extraction prompt, which carries the
    URL made from the same token and the snippets of what that search
    found; it returns the first five trends read off the second reply. *)
Theorem get_trends_in_sequence (env : Env) (st : AgentState)
    (h : list event) :
  exists reply1 found reply2,
    let country := country_of reply1 in
    run env (analyze_and_get_trends st) h =
      (h ++ [ Llm (country_prompt (query st)) reply1;
              Printed (searching_line country (url_of country));
              Search (search_query_of country) 5 found;
              Llm (extract_prompt (url_of country)
                     (join [NL] (snippets found))) reply2 ],
       Done [U_trends (firstn 5 (trends_of reply2))]).
Proof.
  destruct (analyze_run env st h) as (r1 & found & r2 & Hrun).
  exists r1, found, r2. exact Hrun.
Qed.

(** X11.  When the extraction reply lists padded labels separated by
    commas, the request researches the first five of them and nothing
    else: they are the trends of the state entering [research_context],
    and the searches after the first one are the context queries of these
    five labels, in order, each asking for 3 results. *)
Theorem listed_labels_are_researched (env : Env) (input : Message)
    (prompt : str) (pieces ts : list str) :
  let q := get_message_text input in
  let r := run env (langgraph_trends_agent input) [] in
  nth_error (llm_calls (fst r)) 1 = Some (prompt, join [COMMA] pieces) ->
  Forall2 padded_label pieces ts ->
  nth_error (entered (fst r)) 1 =
    Some ("research_context"%string, mkState q (firstn 5 ts) [] [])
  /\ tl (searches (fst r)) =
       List.map (fun t => (context_query t, 3)) (firstn 5 ts).
Proof.
  cbv zeta. destruct (handler_run env input []) as (a & Hlen & Hrun).
  rewrite app_nil_l in Hrun. rewrite Hrun. cbn [fst].
  rewrite llm_calls_request, entered_request. cbv zeta. cbn [nth_error].
  intros E Hall. injection E as _ Hr.
  assert (Hts : trends_after a = firstn 5 ts).
  { unfold trends_after. rewrite Hr. now rewrite (trends_of_padded_labels pieces ts). }
  split; [now rewrite Hts|].
  unfold request_events. cbv zeta.
  rewrite !searches_app, (searches_research_all _ _ Hlen), Hts.
  cbn [searches flat_map get_trends_events Datatypes.app tl].
  now rewrite app_nil_r.
Qed.

(** X12.  The agent of [src/beeai_agents/agent.py] and the agent of
    [src/langgraph_agents/agent.py] differ in their console lines only:
    against collaborators that do not read the console, both make the same
    model calls and searches in the same order, enter the same nodes on the
    same states, yield the same message and end alike. *)
Theorem beeai_same_but_console (env : Env) (input : Message)
    (h : list event) :
  print_blind env ->
  noprint (fst (run env (BeeAI.langgraph_trends_agent input) h)) =
  noprint (fst (run env (langgraph_trends_agent input) h))
  /\ snd (run env (BeeAI.langgraph_trends_agent input) h) =
     snd (run env (langgraph_trends_agent input) h).
Proof.
  intros Hblind.
  apply same_calls_run; [exact Hblind | apply beeai_handler_same | reflexivity].
Qed.

End RequestProperties.

(** ** The properties on sample requests *)

Section Samples.

#[local] Existing Instance ascii_tables.
#[local] Existing Instance text_messages.

Lemma url_of_token_witness :
  url_of (lit "global") = lit "https://trends24.in/"
  /\ url_of (lit "mexico") = lit "https://trends24.in/mexico/".
Proof.
  split.
  - apply (url_of_token (lit "global")). reflexivity.
  - apply (url_of_token (lit "mexico")). vm_compute. discriminate.
Defined.

(** C5 fails on the research prompts: with the same snippets and another
    link in the search results, the model is sent another prompt. *)
Lemma other_fields_reach_research_prompt :
  let st := mkState (lit "news") [lit "AI"] [] [] in
  snippets found_a = snippets found_b
  /\ List.map fst (llm_calls (fst (run (scripted [] [found_a])
                                     (research_trends_context st) [])))
     <> List.map fst (llm_calls (fst (run (scripted [] [found_b])
                                        (research_trends_context st) []))).
Proof.
  split; [reflexivity|]. vm_compute. discriminate.
Qed.

Lemma extract_prompt_reads_snippets_only_witness :
  let st := initial_state (lit "Tell me about global trends.") in
  List.map fst (llm_calls (fst (run env_a (analyze_and_get_trends st) []))) =
  List.map fst (llm_calls (fst (run env_b (analyze_and_get_trends st) []))).
Proof.
  apply (extract_prompt_reads_snippets_only env_a env_b).
  - intros h p. reflexivity.
  - intros h q n. simpl.
    destruct (List.length (filter is_search h)) as [|[|k]]; reflexivity.
Defined.

(** C6 fails: the token that the normalization makes of a quoted reply
    with a space inside the quotes is lowercase and free of quotes, and
    normalizing it again changes it. *)
Lemma country_of_not_idempotent :
  let t := country_of (lit "' japan'") in
  t = lit " japan"
  /\ lower t = t
  /\ has QUOTE t = false /\ has DQUOTE t = false
  /\ country_of t <> t.
Proof.
  repeat split. vm_compute. discriminate.
Qed.

Lemma country_of_fixed_witness : country_of (lit "japan") = lit "japan".
Proof.
  apply country_of_fixed; reflexivity.
Defined.

Lemma single_phrase_degrades_witness :
  let msg := lit "What's trending in Mexico?" in
  let r := run env_phrase (langgraph_trends_agent msg) [] in
  exists report final_res,
    entered (fst r) =
      [ ("get_trends"%string, initial_state msg);
        ("research_context"%string, mkState msg [lit "Bad Bunny"] [] []);
        ("synthesize"%string, mkState msg [lit "Bad Bunny"] [report] []) ]
    /\ In (Llm (final_prompt (reports_text_of [report])) final_res) (fst r)
    /\ yielded (fst r) = [mkAgentMessage (strip final_res)]
    /\ snd r = Done tt
    /\ exists country found,
         extract_prompt (url_of (lit "mexico")) [] =
           extract_prompt (url_of country) (results_text_of found).
Proof.
  apply (@single_phrase_degrades ascii_tables text_messages env_phrase
           (lit "What's trending in Mexico?")
           (extract_prompt (url_of (lit "mexico")) []) (lit "Bad Bunny")).
  - reflexivity.
  - reflexivity.
  - vm_compute. discriminate.
Defined.

(** C8 fails on the token global: the search query ends after the fixed
    text and does not name the token. *)
Lemma global_token_left_out_of_query :
  let st := initial_state (lit "Tell me about global trends.") in
  let tr := fst (run env_global (analyze_and_get_trends st) []) in
  hd_error (llm_calls tr) = Some (country_prompt (query st), lit "global")
  /\ country_of (lit "global") = lit "global"
  /\ searches tr = [(lit "site:trends24.in top trending topics ", 5)]
  /\ searches tr <> [(lit "site:trends24.in top trending topics global", 5)].
Proof.
  repeat split. vm_compute. discriminate.
Qed.

Lemma empty_trends_still_reports_witness :
  let msg := lit "What is trending in Japan?" in
  let r := run env_blank (langgraph_trends_agent msg) [] in
  yielded (fst r) = [mkAgentMessage (lit "Nothing to report.")]
  /\ snd r = Done tt.
Proof.
  destruct (@empty_trends_still_reports ascii_tables text_messages env_blank
              (lit "What is trending in Japan?")
              (extract_prompt (url_of (lit "japan")) []) (lit " , ,")
              eq_refl eq_refl)
    as (reply1 & found & final_res & _ & _ & Hy & Hd).
  split; [reflexivity | exact Hd].
Defined.

End Samples.

(** ** The further properties on sample inputs *)

Section MoreSamples.

#[local] Existing Instance ascii_tables.
#[local] Existing Instance text_messages.

Lemma padded_label_intro (l t r : str) :
  forallb isspace l = true -> forallb isspace r = true ->
  has COMMA t = false -> trimmed t = true -> t <> [] ->
  padded_label (l ++ t ++ r) t.
Proof.
  intros. exists l, r. auto 10.
Qed.

Lemma labels_read_back_witness :
  trends_of (lit "AI, Bitcoin ,World Cup")
  = [lit "AI"; lit "Bitcoin"; lit "World Cup"].
Proof.
  apply (labels_read_back
           [lit "AI"; lit " Bitcoin "; lit "World Cup"]
           [lit "AI"; lit "Bitcoin"; lit "World Cup"]).
  repeat first [apply Forall2_nil | apply Forall2_cons].
  - apply (padded_label_intro [] (lit "AI") []); try reflexivity.
    vm_compute. discriminate.
  - apply (padded_label_intro (lit " ") (lit "Bitcoin") (lit " "));
      try reflexivity.
    vm_compute. discriminate.
  - apply (padded_label_intro [] (lit "World Cup") []); try reflexivity.
    vm_compute. discriminate.
  - simpl. lia.
Defined.

Lemma blank_reply_no_trends_witness : trends_of (lit " , ,") = [].
Proof.
  apply blank_reply_no_trends. reflexivity.
Defined.

Lemma url_of_distinct_witness : url_of (lit "japan") <> url_of (lit "mexico").
Proof.
  apply url_of_distinct. vm_compute. discriminate.
Defined.

Lemma results_text_without_snippets_witness :
  results_text_of
    [ [(lit "title", lit "Summit"); (lit "link", lit "https://a.example/1")];
      [];
      [(lit "link", lit "https://b.example/2")] ]
  = [NL; NL].
Proof.
  apply (results_text_without_snippets
           [ [(lit "title", lit "Summit"); (lit "link", lit "https://a.example/1")];
             [];
             [(lit "link", lit "https://b.example/2")] ]).
  repeat first [apply Forall_nil | apply Forall_cons];
    vm_compute; discriminate.
Defined.

Lemma listed_labels_are_researched_witness :
  let r := run env_six (langgraph_trends_agent (lit "What is trending?")) [] in
  tl (searches (fst r)) =
    List.map (fun t => (context_query t, 3))
      [lit "a"; lit "b"; lit "c"; lit "d"; lit "e"].
Proof.
  apply (@listed_labels_are_researched ascii_tables text_messages env_six
           (lit "What is trending?")
           (extract_prompt (url_of (lit "global")) [])
           [lit "a"; lit " b"; lit " c"; lit " d"; lit " e"; lit " f"]
           [lit "a"; lit "b"; lit "c"; lit "d"; lit "e"; lit "f"]).
  - reflexivity.
  - repeat first [apply Forall2_nil | apply Forall2_cons];
      match goal with
      | |- padded_label _ ?t =>
          first [ apply (padded_label_intro [] t [])
                | apply (padded_label_intro (lit " ") t []) ]
      end;
      try reflexivity; vm_compute; discriminate.
Defined.

Lemma beeai_same_but_console_witness :
  let msg := lit "What's trending in Mexico?" in
  noprint (fst (run env_phrase (BeeAI.langgraph_trends_agent msg) [])) =
  noprint (fst (run env_phrase (langgraph_trends_agent msg) [])).
Proof.
  apply (@beeai_same_but_console ascii_tables text_messages env_phrase
           (lit "What's trending in Mexico?") []).
  apply scripted_print_blind.
Defined.

End MoreSamples.
